(** * Verification of [app.py]: the OCR-to-Word pipeline

    [process_document] takes an uploaded image, asks a hosted model for the
    text on it, and writes that text, line by line, into a word-processing
    document.  This file embeds the function in Rocq and proves the
    properties its specification states about it.

    Layout:
    - [PyStr]: Python's [str] and the methods the function calls on it
      ([split], [strip], [replace], [in]);
    - [Docx]: the part of the document library's object model the function
      touches (document, paragraph, run, the [bold]/[italic] attributes);
    - [format_document]: the loop that turns the response text into
      paragraphs;
    - [Pipeline]: [process_document] itself, with the remote call, the
      exceptions and the file store made explicit;
    - [Startup]: the statements that run when the module is imported;
    - [Spec]: the formatter in the words of the specification;
    - facts about the string methods, the loop and the pipeline, and the
      properties of the specification;
    - further properties of the formatter, the pipeline and the import. *)

From Equations Require Import Equations.
From stdpp Require Import gmap list.
From Stdlib Require Import NArith Ascii.
From Stdlib Require String.
Import String.StringSyntax.
Delimit Scope string_scope with string.

Local Open Scope N_scope.
Local Open Scope list_scope.

(* ===================================================================== *)
(** * Python strings *)
(* ===================================================================== *)

Module PyStr.

(** A Python [str] is a sequence of Unicode code points. *)
Abbreviation char := N (only parsing).
Abbreviation str := (list N) (only parsing).

(** ASCII literals: [py "abc"] is the Python string ['abc']. *)
Definition py (s : String.string) : str :=
  map N_of_ascii (String.list_ascii_of_string s).
Arguments py s%_string.

Definition LF : char := 10.     (* '\n' *)
Definition CR : char := 13.     (* '\r' *)
Definition STAR : char := 42.   (* '*' *)

(** Truth value of a string in a condition ([if s:], [not s]). *)
Definition truthy (s : str) : bool :=
  match s with [] => false | _ :: _ => true end.

(** [str.isspace] on one code point: the characters [str.strip()] removes.
    Below 128 these are TAB, LF, VT, FF, CR, the four separators
    0x1C-0x1F and the space; above, NEL, NBSP and the Unicode spaces. *)
Definition isspace (c : char) : bool :=
  ((9 <=? c) && (c <=? 13)) || ((28 <=? c) && (c <=? 32))
  || (c =? 133) || (c =? 160) || (c =? 5760)
  || ((8192 <=? c) && (c <=? 8202))
  || (c =? 8232) || (c =? 8233) || (c =? 8239) || (c =? 8287)
  || (c =? 12288).

(** Strings of white space only. *)
Definition spaces (ws : str) : Prop := Forall (fun c => isspace c = true) ws.

(** [s.lstrip()], [s.rstrip()], [s.strip()]. *)
Fixpoint lstrip (s : str) : str :=
  match s with
  | [] => []
  | c :: s' => if isspace c then lstrip s' else s
  end.

Fixpoint rstrip (s : str) : str :=
  match s with
  | [] => []
  | c :: s' =>
      match rstrip s' with
      | [] => if isspace c then [] else [c]
      | r => c :: r
      end
  end.

Definition strip (s : str) : str := rstrip (lstrip s).

(** [s.startswith(p)], and the rest of [s] behind the prefix. *)
Fixpoint startswith (p s : str) : bool :=
  match p, s with
  | [], _ => true
  | _ :: _, [] => false
  | a :: p', b :: s' => (a =? b) && startswith p' s'
  end.

(** [sub in s]. *)
Fixpoint contains (sub s : str) : bool :=
  startswith sub s
  || match s with [] => false | _ :: s' => contains sub s' end.

(** [s.split(sep)] for a one-character separator: every occurrence of
    [sep] ends a field, so the result has one more field than [s] has
    separators, and [''.split(sep)] is [['']]. *)
Fixpoint split (sep : char) (s : str) : list str :=
  match s with
  | [] => [[]]
  | c :: s' =>
      if c =? sep then [] :: split sep s'
      else match split sep s' with
           | [] => [[c]]
           | f :: fs => (c :: f) :: fs
           end
  end.

(** [sep.join(fields)]. *)
Fixpoint join (sep : char) (fields : list str) : str :=
  match fields with
  | [] => []
  | [f] => f
  | f :: fs => f ++ sep :: join sep fs
  end.

(** [s.replace(old, new)]: scan from the left; at an occurrence of [old]
    emit [new] and go on behind it, otherwise keep one character.  With an
    empty [old] Python puts [new] before every character and at the end. *)
Equations? replace_from (old new s : str) : str by wf (length s) lt :=
  replace_from old new [] := [];
  replace_from old new (c :: s') with startswith old (c :: s') => {
    | true := new ++ replace_from old new (drop (length old - 1) s');
    | false := c :: replace_from old new s' }.
Proof. all: rewrite ?length_drop; simpl; lia. Qed.

Definition replace (old new s : str) : str :=
  match old with
  | [] => new ++ flat_map (fun c => c :: new) s
  | _ :: _ => replace_from old new s
  end.

End PyStr.

Import PyStr.

(* ===================================================================== *)
(** * The document object model *)
(* ===================================================================== *)

(** The document library is used through four calls: [Document()],
    [doc.add_paragraph()], [p.add_run(text)] and the assignments
    [run.bold = True], [run.italic = True].  A document is the list of its
    paragraphs, a paragraph the list of its runs.  [bold] and [italic] are
    three-valued in the library: [None] (inherit, the value a fresh run
    has), [True] or [False].

    Python hands out references to the paragraph and the run it has just
    added and the code then mutates the run through its reference; here a
    reference is the position of the object in the document.

    [p.add_run(text)] does two things to the text it is given.  It writes
    the text into XML, and the XML library refuses, with an exception, any
    string that holds a character outside the character range of XML: a
    control character other than tab, line feed and carriage return, a
    surrogate, U+FFFE or U+FFFF.  And it stores a line feed or a carriage
    return as a line break of the run (a tab as a tab stop), so that
    [run.text] afterwards reads a line feed where the text had either.
    The field [text] of a run is what [run.text] reads. *)
Module Docx.

Record Run := mkRun {
  text : str;
  bold : option bool;
  italic : option bool
}.

Abbreviation Paragraph := (list Run) (only parsing).
Abbreviation Document := (list (list Run)) (only parsing).

Abbreviation ParagraphRef := nat (only parsing).
Abbreviation RunRef := (nat * nat)%type (only parsing).

(** [Document()]: the default template has no paragraph. *)
Definition new_document : Document := [].

(** [doc.add_paragraph()]: a new empty paragraph at the end. *)
Definition add_paragraph (doc : Document) : ParagraphRef * Document :=
  (length doc, doc ++ [[]]).

(** The characters XML allows: #x9, #xA, #xD, #x20-#xD7FF,
    #xE000-#xFFFD and #x10000-#x10FFFF. *)
Definition xml_char (c : char) : bool :=
  (c =? 9) || (c =? 10) || (c =? 13)
  || ((32 <=? c) && (c <=? 55295))
  || ((57344 <=? c) && (c <=? 65533))
  || ((65536 <=? c) && (c <=? 1114111)).

(** The texts [add_run] takes without raising. *)
Definition accepts (t : str) : bool := forallb xml_char t.

(** What [run.text] reads after [add_run(t)]: a carriage return has
    become a line break, which reads as a line feed. *)
Definition run_text (t : str) : str :=
  map (fun c => if c =? CR then LF else c) t.

(** [p.add_run(text)]: a new run at the end of paragraph [p], or [None]
    when the call raises. *)
Definition add_run (p : ParagraphRef) (t : str) (doc : Document)
  : option (RunRef * Document) :=
  if accepts t then
    Some ((p, from_option length 0%nat (doc !! p)),
          alter (fun par => par ++ [mkRun (run_text t) None None]) p doc)
  else None.

(** [run.bold = v] and [run.italic = v]. *)
Definition set_bold (r : RunRef) (v : bool) (doc : Document) : Document :=
  alter (alter (fun run => mkRun (text run) (Some v) (italic run)) (snd r))
        (fst r) doc.

Definition set_italic (r : RunRef) (v : bool) (doc : Document) : Document :=
  alter (alter (fun run => mkRun (text run) (bold run) (Some v)) (snd r))
        (fst r) doc.

End Docx.

Import Docx.

(* ===================================================================== *)
(** * The formatter: from response text to paragraphs *)
(* ===================================================================== *)

(** The body of the loop [for line in extracted_text.split('\n')].  The
    result is the document after the turn, [inr doc], or, when
    [p.add_run] raises, the text it raised on, [inl text_to_write]: the
    exception leaves the loop and the [try]. *)
Definition format_line (doc : Document) (line : str) : str + Document :=
  let clean_line := strip line in
  if truthy clean_line then
    let '(p, doc) := add_paragraph doc in
    let text_to_write :=
      replace (py "*") [] (replace (py "**") [] clean_line) in
    match add_run p text_to_write doc with
    | None => inl text_to_write
    | Some (run, doc) =>
        let doc := if contains (py "**") line
                   then set_bold run true doc else doc in
        let doc := if contains (py "*") line
                      && negb (contains (py "**") line)
                   then set_italic run true doc else doc in
        inr doc
    end
  else inr doc.

(** The loop, started on a given document: it stops at the first line on
    which the body raises. *)
Fixpoint format_lines (lines : list str) (doc : Document)
  : str + Document :=
  match lines with
  | [] => inr doc
  | line :: rest =>
      match format_line doc line with
      | inl t => inl t
      | inr doc' => format_lines rest doc'
      end
  end.

(** [doc = Document()] followed by the loop: the document that is saved,
    if the loop gets to its end. *)
Definition format_document (extracted_text : str) : str + Document :=
  format_lines (split LF extracted_text) new_document.

(** Two runs of the loop, one after the other: the paragraphs of the
    first followed by those of the second, unless one of them raised, and
    then the first that did is what comes out. *)
Definition followed_by (r1 r2 : str + Document) : str + Document :=
  match r1, r2 with
  | inl t, _ => inl t
  | inr _, inl t => inl t
  | inr doc1, inr doc2 => inr (doc1 ++ doc2)
  end.

Definition sample_response : str :=
  py "**Title**" ++ LF :: py "Some plain text" ++ LF :: py "*Note*".

(* ===================================================================== *)
(** * The pipeline *)
(* ===================================================================== *)

(** What the function sees of the outside: the files on disk and the
    requests that have gone out to the inference service. *)
Module Pipeline.

(** What a path holds: a finished document, or what is left of a save
    that failed after the file had been opened for writing. *)
Inductive FileContent :=
| DocxFile (doc : Document)
| Truncated.

Section WithCollaborators.

(** [Image]: the array the UI passes in; [PilImage]: the converted
    image; [Response]: the object the client library returns; [Exn]:
    the exceptions [except Exception] catches. *)
Context {Image PilImage Response Exn : Type}.

(** One item of the list passed to [generate_content]. *)
Inductive Part :=
| PText (s : str)
| PImage (img : PilImage).

Record Request := mkRequest {
  model_id : str;
  contents : list Part
}.

Record World := mkWorld {
  files : gmap (list N) FileContent;
  calls : list Request
}.

(** The behaviour of the environment and of the external libraries:
    - [api_key]: the value [os.getenv("GEMINI_API_KEY")] had at import;
    - [fromarray]: [Image.fromarray], which raises on arrays it cannot
      convert;
    - [remote]: what the service answers to a request, an exception or
      a response object (possibly [None]);
    - [response_text]: the [text] property of a response, which raises
      when the response carries no text part;
    - [add_run_error]: the exception [p.add_run] raises on a text it
      does not accept;
    - [save_fault]: whether [doc.save(path)] raises, and if so whether
      the file had already been opened for writing;
    - [exn_str]: [str(e)]. *)
Record Env := mkEnv {
  api_key : option str;
  fromarray : Image -> Exn + PilImage;
  remote : Request -> Exn + option Response;
  response_text : Response -> Exn + str;
  add_run_error : str -> Exn;
  save_fault : Document -> str -> option (Exn * bool);
  exn_str : Exn -> str
}.

Variable E : Env.

Definition MODEL_ID : str := py "gemini-3-flash-preview".

Definition prompt : str :=
  join LF
    [ [];
      py "        Extract all text from this document accurately. ";
      py "        - Identify titles and align them correctly.";
      py "        - Preserve Bold and Italic formatting.";
      py "        - Group lines into logical paragraphs.";
      py "        - If there are handwritten notes, transcribe them faithfully.";
      py "        " ].

(** Computations that read and change the world and may raise. *)
Definition M (A : Type) : Type := World -> (Exn + A) * World.

Definition ret {A} (a : A) : M A := fun w => (inr a, w).

Definition bind {A B} (m : M A) (k : A -> M B) : M B :=
  fun w =>
    match m w with
    | (inl e, w') => (inl e, w')
    | (inr a, w') => k a w'
    end.

(** A library call that touches nothing outside the process. *)
Definition lift {A} (r : Exn + A) : M A := fun w => (r, w).

Notation "'let!' x ':=' m 'in' k" := (bind m (fun x => k))
  (at level 10, x name, m at level 100, k at level 200).

(** [model.generate_content(contents)]: the request goes out. *)
Definition generate_content (model : str) (cs : list Part)
  : M (option Response) :=
  fun w =>
    let req := mkRequest model cs in
    (remote E req, mkWorld (files w) (calls w ++ [req])).

(** The request that goes out for a converted image. *)
Definition request_for (pil : PilImage) : Request :=
  mkRequest MODEL_ID [PText prompt; PImage pil].

(** [doc.save(path)]. *)
Definition save (doc : Document) (path : str) : M unit :=
  fun w =>
    match save_fault E doc path with
    | None =>
        (inr tt, mkWorld (<[path := DocxFile doc]> (files w)) (calls w))
    | Some (e, opened) =>
        (inl e,
         mkWorld (if opened then <[path := Truncated]> (files w)
                  else files w)
                 (calls w))
    end.

Definition output_path : str := py "Converted_Document.docx".

(** The three outputs: file, status, text preview. *)
Definition Result : Type := option str * str * str.

Definition file_of (r : Result) : option str := fst (fst r).
Definition status_of (r : Result) : str := snd (fst r).
Definition preview_of (r : Result) : str := snd r.

Definition NO_IMAGE : str := py "Error: No image uploaded.".
Definition NO_KEY : str :=
  py "Error: API Key missing in Space Secrets (GEMINI_API_KEY).".
Definition EMPTY_RESPONSE : str :=
  py "Error: Model returned an empty response.".
(** U+2705 and U+274C are the check mark and the cross. *)
Definition SUCCESS : str := 9989 :: py " Conversion Successful!".
Definition system_error (e : Exn) : str :=
  10060 :: py " System Error: " ++ exn_str E e.

(** [not api_key]: the variable is unset or empty. *)
Definition key_missing : bool :=
  match api_key E with
  | None => true
  | Some k => negb (truthy k)
  end.

(** The first half of the [try]: convert the image, call the model and
    read the text of its answer.  [None] stands for the branch
    [if not response or not response.text], which leaves the function
    with the empty-response message. *)
Definition extract_text (input_img : Image) : M (option str) :=
  let! pil_img := lift (fromarray E input_img) in
  let! response :=
    generate_content MODEL_ID [PText prompt; PImage pil_img] in
  match response with
  | None => ret None
  | Some r =>
      let! t := lift (response_text E r) in
      if negb (truthy t) then ret None
      else
        let! extracted_text := lift (response_text E r) in
        ret (Some extracted_text)
  end.

(** [doc = Document()] and the loop over the lines, as a step of the
    [try]: an exception of [p.add_run] is raised here. *)
Definition assemble (extracted_text : str) : M Document :=
  lift (match format_document extracted_text with
        | inl t => inl (add_run_error E t)
        | inr doc => inr doc
        end).

(** The body of the [try]. *)
Definition try_body (input_img : Image) : M Result :=
  let! extracted := extract_text input_img in
  match extracted with
  | None => ret (None, EMPTY_RESPONSE, [])
  | Some extracted_text =>
      let! doc := assemble extracted_text in
      let! saved := save doc output_path in
      ret (Some output_path, SUCCESS, extracted_text)
  end.

Definition process_document (input_img : option Image)
  : World -> Result * World :=
  fun w =>
    match input_img with
    | None => ((None, NO_IMAGE, []), w)
    | Some img =>
        if key_missing then ((None, NO_KEY, []), w)
        else
          match try_body img w with
          | (inr res, w') => (res, w')
          | (inl e, w') => ((None, system_error e, []), w')
          end
    end.

End WithCollaborators.

Arguments Part : clear implicits.
Arguments Request : clear implicits.
Arguments World : clear implicits.
Arguments Env : clear implicits.

(** The message of the exception the XML library raises. *)
Definition XML_MESSAGE : str :=
  py "All strings must be XML compatible: Unicode or ASCII, no NULL bytes or control characters".

(** A small environment to run the pipeline in: every image converts, the
    service answers [answer] unless it is told to raise [fault], saving
    works, and an exception is its own message. *)
Definition scripted_env (key : option str) (fault : option str) (answer : str)
  : Env nat nat str str :=
  {| api_key := key;
     fromarray := fun img => inr img;
     remote := fun _ => match fault with
                        | Some e => inl e
                        | None => inr (Some answer)
                        end;
     response_text := fun r => inr r;
     add_run_error := fun _ => XML_MESSAGE;
     save_fault := fun _ _ => None;
     exn_str := fun e => e |}.

Definition empty_world : World nat := mkWorld ∅ [].

(** A disk that already holds an output file from an earlier request. *)
Definition used_world : World nat :=
  mkWorld {[ output_path := DocxFile [[mkRun (py "old") None None]] ]} [].

(** An environment in which each step can be made to raise: [conv] in
    the conversion of the image, [call] in the request, [saving] in
    [doc.save] after the file was opened.  The service returns a response
    whose text is [answer], or no response object at all. *)
Definition staged_env (key conv call saving : option str)
    (answer : option str) : Env nat nat str str :=
  {| api_key := key;
     fromarray := fun img => match conv with
                             | Some e => inl e
                             | None => inr img
                             end;
     remote := fun _ => match call with
                        | Some e => inl e
                        | None => inr answer
                        end;
     response_text := fun r => inr r;
     add_run_error := fun _ => XML_MESSAGE;
     save_fault := fun _ _ => match saving with
                              | Some e => Some (e, true)
                              | None => None
                              end;
     exn_str := fun e => e |}.

End Pipeline.

Import Pipeline.

(* ===================================================================== *)
(** * What runs when the module is imported *)
(* ===================================================================== *)

(** Before [process_document] is defined the module reads the key from
    the process environment and, if there is one, hands it to the client
    library; otherwise it prints a warning.  [environ] is [os.environ];
    the result records the module variable [api_key], the key
    [genai.configure] was called with, and the lines printed. *)
Module Startup.

Record Boot := mkBoot {
  boot_api_key : option str;
  configured : option str;
  printed : list str
}.

Definition KEY_NAME : str := py "GEMINI_API_KEY".

Definition KEY_WARNING : str :=
  py "Warning: GEMINI_API_KEY not found in environment secrets.".

Definition import_module (environ : gmap (list N) (list N)) : Boot :=
  let api_key := environ !! KEY_NAME in
  match api_key with
  | Some k =>
      if truthy k then mkBoot api_key (Some k) []
      else mkBoot api_key None [KEY_WARNING]
  | None => mkBoot api_key None [KEY_WARNING]
  end.

End Startup.

Import Startup.

(* ===================================================================== *)
(** * The formatter as the specification words it *)
(* ===================================================================== *)

(** "Split on line breaks; trim whitespace; discard empty lines; for each
    remaining line, detect presence of a double-marker substring (mapped
    to bold) else a single-marker substring (mapped to italic) else none;
    strip all marker substrings from the displayed text."  The result is
    an ordered list of (text, emphasis) pairs. *)
Module Spec.

Inductive Emphasis := NoEmphasis | Bold | Italic.

Definition Entry : Type := str * Emphasis.

Definition emphasis_of (line : str) : Emphasis :=
  if contains (py "**") line then Bold
  else if contains (py "*") line then Italic
  else NoEmphasis.

Definition displayed_text (line : str) : str :=
  filter (fun c => c ≠ STAR) line.

Definition entries_of_lines (lines : list str) : list Entry :=
  map (fun l => (displayed_text l, emphasis_of l))
      (filter (fun l => l ≠ []) (map strip lines)).

Definition formatter (raw : str) : list Entry :=
  entries_of_lines (split LF raw).

(** The document writer puts one paragraph per entry, with the emphasis
    on the paragraph's single run; the run reads the text of the entry as
    the library stores it. *)
Definition run_of_entry (e : Entry) : Run :=
  mkRun (run_text (fst e))
        (match snd e with Bold => Some true | _ => None end)
        (match snd e with Italic => Some true | _ => None end).

Definition document_of (es : list Entry) : Document :=
  map (fun e => [run_of_entry e]) es.

(** Rendering a document back into response text: a bold run between
    doubled markers, an italic run between single markers, one paragraph
    per line. *)
Definition render_run (r : Run) : str :=
  match bold r, italic r with
  | Some true, _ => py "**" ++ text r ++ py "**"
  | _, Some true => py "*" ++ text r ++ py "*"
  | _, _ => text r
  end.

Definition render_paragraph (p : Paragraph) : str := flat_map render_run p.

Definition render (doc : Document) : str :=
  join LF (map render_paragraph doc).

(** The lines a list of entries renders to. *)
Definition rendered_lines (es : list Entry) : list str :=
  map (fun e => render_run (run_of_entry e)) es.

End Spec.

Import Spec.

(* ===================================================================== *)
(** * The definitions at work *)
(* ===================================================================== *)

Example split_ex :
  split LF (py "a" ++ LF :: LF :: py "b" ++ [LF]) = [py "a"; []; py "b"; []].
Proof. reflexivity. Qed.

Example replace_ex : replace (py "**") [] (py "a***b**c*") = py "a*bc*".
Proof. vm_compute. reflexivity. Qed.

Example replace_empty_ex : replace [] (py "-") (py "abc") = py "-a-b-c-".
Proof. vm_compute. reflexivity. Qed.

Example strip_ex : strip (py "  a b  ") = py "a b".
Proof. vm_compute. reflexivity. Qed.

(** The ideographic space and the no-break space are stripped, the
    zero-width space (U+200B) is not. *)
Example strip_unicode_ex : strip [12288; 65; 8203; 160] = [65; 8203].
Proof. vm_compute. reflexivity. Qed.

(** A marker anywhere in the line decides the emphasis of the whole
    paragraph, and blank lines leave no trace. *)
Example format_ex :
  format_document (py "  a*b**c  " ++ LF :: py "   " ++ LF :: py "- x * y")
  = inr [ [mkRun (py "abc") (Some true) None];
          [mkRun (py "- x  y") None (Some true)] ].
Proof. vm_compute. reflexivity. Qed.

(** A form feed inside a line makes [add_run] raise, and the loop ends
    there; at the end of a line it is white space and is stripped.  A
    carriage return inside a line is stored as a line break. *)
Example format_form_feed_ex :
  format_document (py "ok" ++ LF :: py "a" ++ 12 :: py "b")
  = inl (py "a" ++ 12 :: py "b")
  /\ format_document (py "a" ++ [12]) = inr [[mkRun (py "a") None None]]
  /\ format_document (py "a" ++ CR :: py "b")
     = inr [[mkRun (py "a" ++ LF :: py "b") None None]].
Proof. vm_compute. auto. Qed.

(** [add_run] takes a tab, DEL and text outside the basic plane; it
    raises on NUL, on a vertical tab, on a surrogate and on U+FFFE. *)
Example accepts_ex :
  accepts [9; 127; 128512] = true
  /\ map (fun c => accepts [c]) [0; 11; 55296; 65534] = [false; false; false; false].
Proof. vm_compute. auto. Qed.

(* ===================================================================== *)
(** * Facts about the string methods *)
(* ===================================================================== *)

Section StringFacts.

Implicit Types (c sep : char) (s sub old new : str).

(** ** [startswith] and [in] *)

Lemma startswith_app sub s : startswith sub (sub ++ s) = true.
Proof.
  induction sub as [|a sub IH]; simpl; [done|].
  by rewrite N.eqb_refl, IH.
Qed.

Lemma startswith_spec sub s :
  startswith sub s = true <-> exists rest, s = sub ++ rest.
Proof.
  split.
  - revert s. induction sub as [|a sub IH]; intros s H; [by exists s|].
    destruct s as [|b s]; [done|]. simpl in H.
    apply andb_true_iff in H as [Hab H]. apply N.eqb_eq in Hab. subst b.
    destruct (IH _ H) as [rest ->]. by exists rest.
  - intros [rest ->]. apply startswith_app.
Qed.

Lemma contains_unfold sub s :
  contains sub s =
  startswith sub s
  || match s with [] => false | _ :: s' => contains sub s' end.
Proof. by destruct s. Qed.

(** [sub in s] holds exactly when [s] can be cut around a copy of [sub]. *)
Lemma contains_spec sub s :
  contains sub s = true <-> exists pre post, s = pre ++ sub ++ post.
Proof.
  split.
  - induction s as [|c s IH]; rewrite contains_unfold, orb_true_iff.
    + intros [H|H]; [|done].
      apply startswith_spec in H as [rest H]. by exists [], rest.
    + intros [H|H].
      * apply startswith_spec in H as [rest H]. by exists [], rest.
      * destruct (IH H) as (pre & post & ->). by exists (c :: pre), post.
  - intros (pre & post & ->).
    induction pre as [|c pre IH]; rewrite contains_unfold.
    + simpl. by rewrite startswith_app.
    + change ((c :: pre) ++ sub ++ post) with (c :: (pre ++ sub ++ post)).
      cbv iota. rewrite IH. apply orb_true_r.
Qed.

Lemma contains_single c s : contains [c] s = true <-> c ∈ s.
Proof.
  rewrite contains_spec. split.
  - intros (pre & post & ->). set_solver.
  - intros H. apply list_elem_of_split in H as (pre & post & ->).
    by exists pre, post.
Qed.

Lemma contains_single_false c s :
  contains [c] s = false <-> Forall (fun x => x ≠ c) s.
Proof.
  rewrite <- not_true_iff_false, contains_single, Forall_forall.
  split; [intros H x Hx -> | intros H Hc]; [done|]. by apply (H c).
Qed.

(** ** [replace] *)

Lemma replace_from_cons old new c s :
  replace_from old new (c :: s) =
  if startswith old (c :: s)
  then new ++ replace_from old new (drop (length old - 1) s)
  else c :: replace_from old new s.
Proof.
  simp replace_from. by destruct (startswith _ _).
Qed.

(** Replacing one character by nothing deletes every copy of it. *)
Lemma replace_single c s :
  replace [c] [] s = filter (fun x => x ≠ c) s.
Proof.
  unfold replace. induction s as [|a s IH]; [by simp replace_from|].
  rewrite replace_from_cons. simpl. rewrite andb_true_r.
  destruct (N.eqb_spec c a) as [->|Hne].
  - rewrite filter_cons_False by (intros H; by apply H). apply IH.
  - rewrite filter_cons_True by congruence. by rewrite IH.
Qed.

(** Replacing a doubled character by nothing deletes copies of that
    character only. *)
Lemma filter_replace_double c s :
  filter (fun x => x ≠ c) (replace [c; c] [] s) = filter (fun x => x ≠ c) s.
Proof.
  unfold replace.
  assert (forall n s, (length s <= n)%nat ->
            filter (fun x => x ≠ c) (replace_from [c; c] [] s)
            = filter (fun x => x ≠ c) s) as Hn; [|by apply (Hn (length s))].
  clear s. induction n as [|n IH]; intros s Hlen.
  - destruct s; [by simp replace_from | simpl in Hlen; lia].
  - destruct s as [|a s]; [by simp replace_from|].
    rewrite replace_from_cons.
    destruct (startswith [c; c] (a :: s)) eqn:Hsw.
    + apply startswith_spec in Hsw as [rest Hrest].
      simpl in Hrest. injection Hrest as -> ->. simpl.
      rewrite drop_0, !filter_cons_False by (intros H; by apply H).
      apply IH. simpl in Hlen. lia.
    + rewrite !filter_cons. rewrite IH by (simpl in Hlen; lia). done.
Qed.

(** The two calls [.replace('**', '').replace('*', '')] together. *)
Lemma replace_markers s :
  replace [STAR] [] (replace [STAR; STAR] [] s)
  = filter (fun x => x ≠ STAR) s.
Proof. by rewrite replace_single, filter_replace_double. Qed.

End StringFacts.

Section StripFacts.

Implicit Types (c : char) (s sub : str).

Lemma spaces_nil : spaces [].
Proof. constructor. Qed.

Lemma spaces_cons c ws : isspace c = true -> spaces ws -> spaces (c :: ws).
Proof. by constructor. Qed.

Local Hint Resolve spaces_nil spaces_cons : core.

(** [lstrip] cuts a run of white space off the front, [rstrip] off the
    back. *)
Lemma lstrip_cut s : exists ws, s = ws ++ lstrip s /\ spaces ws.
Proof.
  induction s as [|c s (ws & Hs & Hws)]; [exists []; auto|]. simpl.
  destruct (isspace c) eqn:Hc.
  - exists (c :: ws). split; [simpl; by f_equal | auto].
  - exists []. auto.
Qed.

Lemma rstrip_cut s : exists ws, s = rstrip s ++ ws /\ spaces ws.
Proof.
  induction s as [|c s (ws & Hs & Hws)]; [exists []; auto|]. simpl.
  destruct (rstrip s) as [|a r].
  - destruct (isspace c) eqn:Hc.
    + exists (c :: ws). simpl in Hs. subst s. split; [done | auto].
    + exists ws. simpl in *. by subst s.
  - exists ws. split; [simpl; by f_equal | done].
Qed.

(** What is left has no white space at either end. *)
Lemma lstrip_head s :
  lstrip s = [] \/ exists c s', lstrip s = c :: s' /\ isspace c = false.
Proof.
  induction s as [|c s IH]; [by left|]. simpl.
  destruct (isspace c) eqn:Hc; [done|]. right. by exists c, s.
Qed.

Lemma rstrip_cons c s :
  rstrip (c :: s) = [] \/ exists r, rstrip (c :: s) = c :: r.
Proof.
  simpl. destruct (rstrip s) as [|a r].
  - destruct (isspace c); [by left | right; by exists []].
  - right. by exists (a :: r).
Qed.

Lemma lstrip_fixed c s : isspace c = false -> lstrip (c :: s) = c :: s.
Proof. intros H. simpl. by rewrite H. Qed.

Lemma rstrip_fixed c s : isspace c = false -> rstrip (s ++ [c]) = s ++ [c].
Proof.
  intros H. induction s as [|a s IH]; simpl; [by rewrite H|].
  rewrite IH. by destruct (s ++ [c]) eqn:Heq; [destruct s|].
Qed.

Lemma rstrip_idemp s : rstrip (rstrip s) = rstrip s.
Proof.
  induction s as [|c s IH]; [done|]. simpl.
  destruct (rstrip s) as [|a r] eqn:Hr.
  - destruct (isspace c) eqn:Hc; simpl; by rewrite ?Hc.
  - change (rstrip (c :: a :: r)) with
      (match rstrip (a :: r) with
       | [] => if isspace c then [] else [c]
       | x :: r' => c :: x :: r'
       end).
    by rewrite IH.
Qed.

Lemma strip_idemp s : strip (strip s) = strip s.
Proof.
  unfold strip.
  destruct (lstrip_head s) as [H | (c & s' & H & Hc)]; rewrite H; [done|].
  destruct (rstrip_cons c s') as [Hr | (r & Hr)]; rewrite Hr; [done|].
  rewrite lstrip_fixed by done. rewrite <- Hr. apply rstrip_idemp.
Qed.

(** A string that starts and ends with a character that is not white
    space is left alone. *)
Lemma strip_fixed c1 c2 s :
  isspace c1 = false -> isspace c2 = false ->
  strip (c1 :: s ++ [c2]) = c1 :: s ++ [c2].
Proof.
  intros H1 H2. unfold strip. rewrite lstrip_fixed by done.
  by rewrite app_comm_cons, rstrip_fixed.
Qed.

(** Stripping cannot remove or create an occurrence of a substring that
    has no white space in it. *)
Lemma contains_lstrip sub s :
  sub ≠ [] -> Forall (fun c => isspace c = false) sub ->
  contains sub (lstrip s) = contains sub s.
Proof.
  intros Hne Hsub. induction s as [|c s IH]; [done|].
  simpl lstrip. destruct (isspace c) eqn:Hc; [|done].
  rewrite IH, (contains_unfold sub (c :: s)).
  destruct sub as [|a sub]; [done|]. simpl startswith.
  destruct (N.eqb_spec a c) as [->|]; [|done].
  apply Forall_cons in Hsub as [Ha _]. congruence.
Qed.

Lemma contains_app_spaces sub s ws :
  sub ≠ [] -> Forall (fun c => isspace c = false) sub -> spaces ws ->
  contains sub (s ++ ws) = true -> contains sub s = true.
Proof.
  intros Hne Hsub. induction ws as [|w ws IH] using rev_ind; intros Hws;
    [by rewrite app_nil_r|].
  apply Forall_app in Hws as [Hws Hw]. apply Forall_inv in Hw.
  rewrite app_assoc. intros H. apply IH; [done|]. clear IH.
  apply contains_spec in H as (pre & post & H).
  apply contains_spec.
  destruct post as [|p post _] using rev_ind.
  - exfalso. rewrite app_nil_r in H.
    destruct sub as [|b sub _] using rev_ind; [done|].
    rewrite app_assoc in H. apply app_inj_tail in H as [_ ->].
    apply Forall_app in Hsub as [_ Hb]. apply Forall_inv in Hb. congruence.
  - rewrite !app_assoc in H. apply app_inj_tail in H as [H _].
    exists pre, post. by rewrite H, app_assoc.
Qed.

Lemma contains_rstrip sub s :
  sub ≠ [] -> Forall (fun c => isspace c = false) sub ->
  contains sub (rstrip s) = contains sub s.
Proof.
  intros Hne Hsub. destruct (rstrip_cut s) as (ws & Hs & Hws).
  apply eq_true_iff_eq. split; intros H.
  - rewrite Hs. apply contains_spec in H as (pre & post & ->).
    apply contains_spec. exists pre, (post ++ ws). by rewrite <- !app_assoc.
  - rewrite Hs in H. by apply contains_app_spaces in H.
Qed.

Lemma contains_strip sub s :
  sub ≠ [] -> Forall (fun c => isspace c = false) sub ->
  contains sub (strip s) = contains sub s.
Proof.
  intros Hne Hsub. unfold strip.
  by rewrite contains_rstrip, contains_lstrip.
Qed.

End StripFacts.

Section SplitFacts.

Implicit Types (c sep : char) (s f : str) (fs : list str).

Lemma split_nonempty sep s : split sep s ≠ [].
Proof.
  destruct s as [|c s]; [done|]. simpl.
  destruct (c =? sep); [done|]. by destruct (split sep s).
Qed.

(** No field of a split holds the separator. *)
Lemma split_fields sep s : Forall (fun f => sep ∉ f) (split sep s).
Proof.
  induction s as [|c s IH]; simpl.
  - repeat constructor. apply not_elem_of_nil.
  - destruct (N.eqb_spec c sep) as [->|Hne].
    + constructor; [apply not_elem_of_nil | done].
    + destruct (split sep s) as [|f fs].
      * repeat constructor. apply not_elem_of_cons.
        split; [congruence | apply not_elem_of_nil].
      * apply Forall_cons in IH as [Hf Hfs].
        constructor; [|done]. apply not_elem_of_cons. split; [congruence | done].
Qed.

Lemma split_field sep f : sep ∉ f -> split sep f = [f].
Proof.
  induction f as [|c f IH]; [done|]. intros H. simpl.
  apply not_elem_of_cons in H as [Hne H].
  destruct (N.eqb_spec c sep); [congruence|]. by rewrite IH.
Qed.

Lemma split_app sep f s :
  sep ∉ f -> split sep (f ++ sep :: s) = f :: split sep s.
Proof.
  induction f as [|c f IH]; intros H; simpl.
  - by rewrite N.eqb_refl.
  - apply not_elem_of_cons in H as [Hne H].
    destruct (N.eqb_spec c sep); [congruence|]. by rewrite IH.
Qed.

(** Splitting what [join] built gives the fields back. *)
Lemma split_join sep fs :
  fs ≠ [] -> Forall (fun f => sep ∉ f) fs -> split sep (join sep fs) = fs.
Proof.
  intros Hne Hfs. induction Hfs as [|f fs Hf Hfs IH]; [done|].
  destruct fs as [|g fs]; [by apply split_field|].
  change (join sep (f :: g :: fs)) with (f ++ sep :: join sep (g :: fs)).
  rewrite split_app by done. by rewrite IH.
Qed.

End SplitFacts.

(* ===================================================================== *)
(** * The loop computes what the specification describes *)
(* ===================================================================== *)

Section FormatterFacts.

Implicit Types (line t : str) (lines : list str) (doc : list (list Run)).

Lemma star_not_space : Forall (fun c => isspace c = false) [STAR].
Proof. by repeat constructor. Qed.

Lemma stars_not_space : Forall (fun c => isspace c = false) [STAR; STAR].
Proof. by repeat constructor. Qed.

Lemma alter_last {A} (f : A -> A) (l : list A) (x : A) :
  alter f (length l) (l ++ [x]) = l ++ [f x].
Proof. rewrite alter_app_r_alt by lia. by rewrite Nat.sub_diag. Qed.

Lemma emphasis_of_strip line : emphasis_of (strip line) = emphasis_of line.
Proof.
  unfold emphasis_of.
  change (py "**") with [STAR; STAR]. change (py "*") with [STAR].
  by rewrite (contains_strip [STAR; STAR]), (contains_strip [STAR])
    by (done || apply star_not_space || apply stars_not_space).
Qed.

Lemma entries_of_lines_cons line lines :
  entries_of_lines (line :: lines)
  = (if truthy (strip line)
     then [(displayed_text (strip line), emphasis_of line)] else [])
    ++ entries_of_lines lines.
Proof.
  unfold entries_of_lines. simpl map at 2. rewrite filter_cons.
  destruct (strip line) as [|c s] eqn:Hstrip.
  - by rewrite decide_False by (intros H; by apply H).
  - rewrite decide_True by done. simpl. by rewrite <- Hstrip, emphasis_of_strip.
Qed.

Lemma entries_of_lines_app lines1 lines2 :
  entries_of_lines (lines1 ++ lines2)
  = entries_of_lines lines1 ++ entries_of_lines lines2.
Proof.
  unfold entries_of_lines. by rewrite map_app, filter_app, map_app.
Qed.

Lemma document_of_app es1 es2 :
  document_of (es1 ++ es2) = document_of es1 ++ document_of es2.
Proof. apply map_app. Qed.

(** One turn of the loop on a line that is not blank: if [add_run] takes
    the text, the paragraph of the line is added behind what is there;
    if not, the turn raises on that text.  A blank line changes
    nothing. *)
Lemma format_line_spec doc line :
  format_line doc line
  = if truthy (strip line) then
      if accepts (displayed_text (strip line))
      then inr (doc ++ [[run_of_entry (displayed_text (strip line),
                                       emphasis_of line)]])
      else inl (displayed_text (strip line))
    else inr doc.
Proof.
  unfold format_line, emphasis_of, displayed_text.
  change (py "**") with [STAR; STAR]. change (py "*") with [STAR].
  destruct (truthy (strip line)); [|done].
  unfold add_paragraph, add_run, set_bold, set_italic.
  rewrite replace_markers.
  destruct (accepts _); [|done].
  rewrite list_lookup_middle by done. rewrite alter_last.
  unfold run_of_entry. simpl fst; simpl snd; simpl from_option.
  destruct (contains [STAR; STAR] line), (contains [STAR] line);
    simpl; rewrite ?alter_last; simpl; reflexivity.
Qed.

Lemma followed_by_assoc doc1 doc2 (r : str + list (list Run)) :
  followed_by (inr (doc1 ++ doc2)) r
  = followed_by (inr doc1) (followed_by (inr doc2) r).
Proof. destruct r; simpl; by rewrite ?app_assoc. Qed.

Lemma followed_by_nil (r : str + list (list Run)) : followed_by (inr []) r = r.
Proof. by destruct r. Qed.

Lemma format_line_from doc line :
  format_line doc line = followed_by (inr doc) (format_line [] line).
Proof.
  rewrite !format_line_spec.
  destruct (truthy _); [destruct (accepts _)|]; simpl; by rewrite ?app_nil_r.
Qed.

(** The loop started on a document adds to it what it builds when started
    on the empty one, and raises when that raises. *)
Lemma format_lines_from lines doc :
  format_lines lines doc = followed_by (inr doc) (format_lines lines []).
Proof.
  revert doc. induction lines as [|line lines IH]; intros doc; simpl.
  - by rewrite app_nil_r.
  - rewrite (format_line_from doc line).
    destruct (format_line [] line) as [t|par]; simpl; [done|].
    by rewrite IH, (IH par), followed_by_assoc.
Qed.

Lemma format_lines_app lines1 lines2 :
  format_lines (lines1 ++ lines2) []
  = followed_by (format_lines lines1 []) (format_lines lines2 []).
Proof.
  assert (forall doc, format_lines (lines1 ++ lines2) doc
                      = match format_lines lines1 doc with
                        | inl t => inl t
                        | inr doc' => format_lines lines2 doc'
                        end) as H.
  { induction lines1 as [|l lines1 IH]; intros doc; simpl; [done|].
    by destruct (format_line doc l). }
  rewrite H. destruct (format_lines lines1 []) as [t|doc']; [done|].
  apply format_lines_from.
Qed.

(** When [add_run] takes the text of every entry, the loop builds the
    document of the entries. *)
Lemma format_lines_ok lines :
  Forall (fun e => accepts (fst e) = true) (entries_of_lines lines) ->
  format_lines lines [] = inr (document_of (entries_of_lines lines)).
Proof.
  induction lines as [|line lines IH]; [done|].
  rewrite entries_of_lines_cons. intros [Hl Hls]%Forall_app.
  change (line :: lines) with ([line] ++ lines).
  rewrite format_lines_app, (IH Hls), document_of_app. simpl.
  rewrite format_line_spec.
  destruct (truthy (strip line)); [|done].
  apply Forall_inv in Hl. simpl in Hl. by rewrite Hl.
Qed.

(** And a document comes out of the loop only in that case. *)
Lemma format_lines_inv lines doc :
  format_lines lines [] = inr doc ->
  Forall (fun e => accepts (fst e) = true) (entries_of_lines lines)
  /\ doc = document_of (entries_of_lines lines).
Proof.
  revert doc. induction lines as [|line lines IH]; intros doc.
  - intros [= <-]. by split.
  - intros H. change (format_lines ([line] ++ lines) [] = inr doc) in H.
    rewrite format_lines_app in H. simpl in H.
    rewrite format_line_spec in H. rewrite entries_of_lines_cons.
    destruct (truthy (strip line)).
    + destruct (accepts _) eqn:Hacc; [|done].
      destruct (format_lines lines []) as [t|doc'] eqn:Hls; [done|].
      simpl in H. injection H as <-. destruct (IH doc' eq_refl) as [Hall ->].
      split; [by constructor|]. by rewrite document_of_app.
    + destruct (format_lines lines []) as [t|doc'] eqn:Hls; [done|].
      simpl in H. injection H as <-. by destruct (IH doc' eq_refl) as [Hall ->].
Qed.

Lemma format_document_inv (raw : str) doc :
  format_document raw = inr doc ->
  Forall (fun e => accepts (fst e) = true) (formatter raw)
  /\ doc = document_of (formatter raw).
Proof. apply format_lines_inv. Qed.

End FormatterFacts.

(* ===================================================================== *)
(** * Rendering a document and reading it again *)
(* ===================================================================== *)

Section RenderFacts.

Implicit Types (c : char) (s t line : str) (lines : list str).

(** A text without a carriage return is stored as it is. *)
Lemma run_text_id t : CR ∉ t -> run_text t = t.
Proof.
  unfold run_text. induction t as [|c t IH]; [done|].
  intros [Hc Ht]%not_elem_of_cons. simpl. rewrite IH by done.
  by destruct (N.eqb_spec c CR).
Qed.

(** Storing a text brings in no character but the line feed. *)
Lemma run_text_elem c t : c ∈ run_text t -> c = LF \/ c ∈ t.
Proof.
  unfold run_text. intros (x & -> & Hx)%list_elem_of_fmap.
  destruct (x =? CR); [by left | by right].
Qed.

Lemma filter_star_free t :
  Forall (fun c => c ≠ STAR) t -> displayed_text t = t.
Proof.
  unfold displayed_text. induction 1 as [|c t Hc Ht IH]; [done|].
  by rewrite filter_cons_True, IH.
Qed.

Lemma displayed_text_star_free s :
  Forall (fun c => c ≠ STAR) (displayed_text s).
Proof.
  apply Forall_forall. intros c Hc.
  by apply list_elem_of_filter in Hc as [Hc _].
Qed.

Lemma displayed_text_elem c s : c ∈ displayed_text s -> c ∈ s.
Proof. intros Hc. by apply list_elem_of_filter in Hc as [_ Hc]. Qed.

Lemma strip_elem c s : c ∈ strip s -> c ∈ s.
Proof.
  intros Hc. unfold strip in Hc.
  destruct (lstrip_cut s) as (ws & Hs & _).
  destruct (rstrip_cut (lstrip s)) as (ws' & Hs' & _).
  rewrite Hs, Hs', !elem_of_app. auto.
Qed.

(** A line of markers only that has no doubled marker is one marker. *)
Lemma lone_marker s :
  s ≠ [] -> displayed_text s = [] -> contains [STAR; STAR] s = false ->
  s = [STAR].
Proof.
  intros Hne Ht Hc.
  assert (forall c, c ∈ s -> c = STAR) as Hall.
  { intros c Hc'. destruct (decide (c = STAR)) as [|Hn]; [done|].
    by destruct (filter_nil_not_elem_of _ _ c Ht Hn). }
  destruct s as [|a [|b s]]; [done| |].
  - by rewrite (Hall a) by apply list_elem_of_here.
  - rewrite (Hall a), (Hall b) in Hc
      by (apply list_elem_of_here || apply list_elem_of_further, list_elem_of_here).
    discriminate Hc.
Qed.

Lemma no_double_snoc c t :
  Forall (fun x => x ≠ c) t -> contains [c; c] (t ++ [c]) = false.
Proof.
  induction 1 as [|a t Ha Ht IH].
  - simpl. by rewrite andb_false_r.
  - change ((a :: t) ++ [c]) with (a :: (t ++ [c])).
    rewrite contains_unfold, IH. simpl.
    destruct (N.eqb_spec c a); [congruence | done].
Qed.

Lemma no_double_wrapped c t :
  t ≠ [] -> Forall (fun x => x ≠ c) t ->
  contains [c; c] (c :: t ++ [c]) = false.
Proof.
  intros Hne Ht. rewrite contains_unfold, no_double_snoc by done.
  destruct Ht as [|a t Ha Ht]; [done|]. simpl.
  destruct (N.eqb_spec c a); [congruence|]. by rewrite andb_false_r.
Qed.

Lemma strip_wrapped t : strip (STAR :: t ++ [STAR]) = STAR :: t ++ [STAR].
Proof. by apply strip_fixed. Qed.

Lemma displayed_text_wrapped t :
  displayed_text (STAR :: t ++ [STAR]) = displayed_text t.
Proof.
  unfold displayed_text.
  rewrite filter_cons_False, filter_app by (intros H; by apply H).
  rewrite (filter_cons_False _ STAR) by (intros H; by apply H).
  by rewrite filter_nil, app_nil_r.
Qed.

(** The rendering of an entry, read as a line, is the entry again,
    unless the entry is italic with nothing in it: its rendering is a
    doubled marker. *)
Lemma reread_entry s :
  s ≠ [] -> strip s = s -> s ≠ [STAR] -> CR ∉ s ->
  entries_of_lines
    [render_run (run_of_entry (displayed_text s, emphasis_of s))]
  = [(displayed_text s, emphasis_of s)].
Proof.
  intros Hne Hs Hlone Hcr. rewrite entries_of_lines_cons.
  change (entries_of_lines []) with (@nil Entry). rewrite app_nil_r.
  pose proof (displayed_text_star_free s) as Hfree.
  unfold emphasis_of, render_run, run_of_entry. simpl fst; simpl snd.
  rewrite (run_text_id (displayed_text s))
    by (intros H; by apply Hcr, displayed_text_elem).
  change (py "**") with [STAR; STAR]. change (py "*") with [STAR].
  destruct (contains [STAR; STAR] s) eqn:Hdd; simpl bold; simpl italic;
    simpl text; cbv iota.
  - replace ([STAR; STAR] ++ displayed_text s ++ [STAR; STAR])
      with (STAR :: (STAR :: displayed_text s ++ [STAR]) ++ [STAR])
      by (simpl; by rewrite <- app_assoc).
    rewrite strip_wrapped, !displayed_text_wrapped.
    rewrite (filter_star_free (displayed_text s)) by done.
    by simpl.
  - destruct (contains [STAR] s) eqn:Hd; simpl bold; simpl italic;
      simpl text; cbv iota.
    + change ([STAR] ++ displayed_text s ++ [STAR])
        with (STAR :: displayed_text s ++ [STAR]).
      rewrite strip_wrapped, displayed_text_wrapped.
      rewrite (filter_star_free (displayed_text s)) by done.
      rewrite no_double_wrapped; [by simpl | | done].
      intros Ht. by apply Hlone, lone_marker.
    + apply contains_single_false in Hd.
      rewrite (filter_star_free s) by done. rewrite Hs, Hdd.
      rewrite (filter_star_free s) by done.
      apply contains_single_false in Hd. rewrite Hd.
      by destruct s.
Qed.

Lemma render_entry_lf s :
  LF ∉ s -> CR ∉ s ->
  LF ∉ render_run (run_of_entry (displayed_text s, emphasis_of s)).
Proof.
  intros Hs Hcr. assert (LF ∉ displayed_text s) as Ht.
  { intros H. by apply Hs, displayed_text_elem. }
  unfold render_run, run_of_entry; simpl.
  rewrite (run_text_id (displayed_text s))
    by (intros H; by apply Hcr, displayed_text_elem).
  change (py "**") with [STAR; STAR]. change (py "*") with [STAR].
  destruct (emphasis_of s); [done| |];
    repeat (rewrite not_elem_of_app || rewrite not_elem_of_cons);
    repeat split; done || apply not_elem_of_nil.
Qed.

Lemma render_document_of es :
  render (document_of es) = join LF (rendered_lines es).
Proof.
  unfold render, document_of, rendered_lines, render_paragraph.
  rewrite map_map. f_equal. apply map_ext. intros e. simpl. apply app_nil_r.
Qed.

Lemma reread_lines lines :
  Forall (fun line => strip line ≠ [STAR] /\ (CR ∉ strip line)) lines ->
  entries_of_lines (rendered_lines (entries_of_lines lines))
  = entries_of_lines lines.
Proof.
  induction 1 as [|line lines [Hline Hcr] Hlines IH]; [done|].
  rewrite entries_of_lines_cons, <- (emphasis_of_strip line).
  destruct (strip line) as [|c s] eqn:Hstrip; [done|].
  simpl truthy. cbv iota.
  set (e := (displayed_text (c :: s), emphasis_of (c :: s))).
  change (rendered_lines ([e] ++ entries_of_lines lines))
    with ([render_run (run_of_entry e)]
          ++ rendered_lines (entries_of_lines lines)).
  rewrite entries_of_lines_app, IH. subst e.
  rewrite reread_entry; [done | done | | done | done].
  rewrite <- Hstrip. apply strip_idemp.
Qed.

Lemma rendered_lines_lf lines :
  Forall (fun line => (LF ∉ line) /\ (CR ∉ strip line)) lines ->
  Forall (fun line => LF ∉ line) (rendered_lines (entries_of_lines lines)).
Proof.
  induction 1 as [|line lines [Hline Hcr] Hlines IH]; [constructor|].
  rewrite entries_of_lines_cons.
  destruct (truthy (strip line)); [|done].
  constructor; [|done]. rewrite <- emphasis_of_strip.
  apply render_entry_lf; [|done]. intros H. by apply Hline, strip_elem.
Qed.

End RenderFacts.


(* ===================================================================== *)
(** * The pipeline *)
(* ===================================================================== *)

(** Unfold one run of [process_document] into its branches. *)
Ltac run_pipeline :=
  unfold process_document, try_body, assemble, extract_text, save,
    generate_content, bind, lift, ret, file_of, status_of, preview_of in *;
  simpl in *;
  repeat (case_match; simplify_eq; simpl in *).

Section PipelineFacts.

Context {Image PilImage Response Exn : Type}.
Variable E : Env Image PilImage Response Exn.

Implicit Types (w : World PilImage) (img : option Image).

Lemma system_error_nonempty e : system_error E e ≠ [].
Proof. done. Qed.

(** A request that gets as far as its [return] at the end went through
    every step. *)
Lemma success_inv img w p :
  file_of (process_document E img w).1 = Some p ->
  exists i pil r t doc,
    img = Some i /\ key_missing E = false /\
    fromarray E i = inr pil /\
    remote E (request_for pil) = inr (Some r) /\
    response_text E r = inr t /\ truthy t = true /\
    format_document t = inr doc /\
    save_fault E doc output_path = None /\
    process_document E img w =
      ((Some output_path, SUCCESS, t),
       mkWorld (<[output_path := DocxFile doc]> (files w))
               (calls w ++ [request_for pil])).
Proof.
  intros H. run_pipeline.
  eexists _, _, _, _, _. repeat split; try eassumption; try done.
  by destruct (truthy _).
Qed.

End PipelineFacts.

Lemma run_of_entry_no_marker (s : str) (em : Emphasis) :
  STAR ∉ text (run_of_entry (displayed_text s, em)).
Proof.
  simpl. intros [H | H]%run_text_elem; [done|].
  by apply list_elem_of_filter in H as [H _].
Qed.

(** The texts written into the document carry no marker. *)
Lemma format_document_no_marker (raw : str) (doc : list (list Run)) :
  format_document raw = inr doc ->
  Forall (Forall (fun run => STAR ∉ text run)) doc.
Proof.
  intros [_ ->]%format_document_inv.
  apply Forall_forall. intros par Hpar.
  apply list_elem_of_fmap in Hpar as (e & -> & He).
  apply list_elem_of_fmap in He as (l & -> & _).
  repeat constructor. apply run_of_entry_no_marker.
Qed.

Lemma displayed_text_stars (s : str) :
  Forall (fun c => c = STAR) s -> displayed_text s = [].
Proof.
  unfold displayed_text. induction 1 as [|x xs -> _ IH]; [done|].
  by rewrite filter_cons_False by (intros H; by apply H).
Qed.

(* ===================================================================== *)
(** * The properties of the specification *)
(* ===================================================================== *)

(** ** The formatter *)

(** C1. The response text ["**Title**\nSome plain text\n*Note*"] gives
    exactly three paragraphs, in this order: "Title" in bold, "Some plain
    text" without emphasis, "Note" in italic. *)
Theorem sample_response_paragraphs :
  format_document
    (py "**Title**" ++ LF :: py "Some plain text" ++ LF :: py "*Note*")
  = inr [ [mkRun (py "Title") (Some true) None];
          [mkRun (py "Some plain text") None None];
          [mkRun (py "Note") None (Some true)] ].
Proof. vm_compute. reflexivity. Qed.

(** C3, as the code has it.  For every response text in which
    [add_run] takes the text of every line that is kept, the document
    built by the loop is the one the specification describes: the text is
    split on line breaks, every line is trimmed, empty lines are dropped,
    and each line that is left gives one paragraph, in the order of the
    lines, that is bold if the line holds a doubled marker, else italic
    if it holds a marker, else plain, and whose run holds the trimmed
    line without its markers (a carriage return in it stored as a line
    break). *)
Theorem format_document_meets_spec (raw : str) :
  forallb (fun e => accepts (fst e)) (formatter raw) = true ->
  format_document raw = inr (document_of (formatter raw)).
Proof.
  intros H. unfold format_document, formatter. apply format_lines_ok.
  apply Is_true_true, forallb_True in H.
  eapply Forall_impl; [exact H|]. intros e He. by apply Is_true_true.
Qed.

Lemma format_document_meets_spec_witness :
  format_document sample_response
  = inr (document_of (formatter sample_response)).
Proof.
  apply (format_document_meets_spec sample_response).
  vm_compute. reflexivity.
Defined.

(** C3, as the specification has it, fails on a text with a character
    that XML does not allow, a form feed inside a line for one: the
    specification gives the line an entry, but [add_run] raises on it and
    the loop builds no document. *)
Lemma form_feed_is_not_formatted :
  formatter (py "a" ++ 12 :: py "b") = [(py "a" ++ 12 :: py "b", NoEmphasis)]
  /\ format_document (py "a" ++ 12 :: py "b") = inl (py "a" ++ 12 :: py "b").
Proof. split; vm_compute; reflexivity. Qed.

(** C7. No run of a formatted document is both bold and italic. *)
Theorem emphasis_exclusive
    (raw : str) (doc : list (list Run)) (par : list Run) (run : Run) :
  format_document raw = inr doc ->
  par ∈ doc -> run ∈ par ->
  ~ (bold run = Some true /\ italic run = Some true).
Proof.
  intros [_ ->]%format_document_inv Hpar Hrun [Hb Hi].
  apply list_elem_of_fmap in Hpar as (e & -> & _).
  apply list_elem_of_singleton in Hrun as ->.
  unfold run_of_entry in *. simpl in *. by destruct (snd e).
Qed.

Lemma emphasis_exclusive_witness :
  ~ (bold (mkRun (py "a") (Some true) None) = Some true
     /\ italic (mkRun (py "a") (Some true) None) = Some true).
Proof.
  apply (emphasis_exclusive (py "**a**")
           [[mkRun (py "a") (Some true) None]]
           [mkRun (py "a") (Some true) None]).
  - vm_compute. reflexivity.
  - apply list_elem_of_here.
  - apply list_elem_of_here.
Defined.

(** C8. A line that is not empty after trimming but is made of markers
    only still gives a paragraph, at its place among the others, and the
    text of that paragraph is empty. *)
Theorem marker_only_line_emits_empty_paragraph
    (raw : str) (before after : list str) (line : str) :
  split LF raw = before ++ line :: after ->
  strip line ≠ [] ->
  Forall (fun c => c = STAR) (strip line) ->
  exists run,
    text run = []
    /\ format_document raw
       = followed_by (format_lines before new_document)
           (followed_by (inr [[run]]) (format_lines after new_document)).
Proof.
  intros Hsplit Hne Hstars.
  exists (run_of_entry ([], emphasis_of line)). split; [done|].
  unfold format_document. rewrite Hsplit, format_lines_app. f_equal.
  change (line :: after) with ([line] ++ after).
  rewrite format_lines_app. f_equal. simpl. rewrite format_line_spec.
  rewrite displayed_text_stars by done. by destruct (strip line).
Qed.

Lemma marker_only_line_emits_empty_paragraph_witness :
  exists run,
    text run = []
    /\ format_document (py "**")
       = followed_by (format_lines [] new_document)
           (followed_by (inr [[run]]) (format_lines [] new_document)).
Proof.
  apply (marker_only_line_emits_empty_paragraph (py "**") [] [] (py "**")).
  - reflexivity.
  - vm_compute. discriminate.
  - vm_compute. repeat constructor.
Defined.

(** C5. Formatting is stable under rendering: write the paragraphs of a
    formatted response back as lines, bold ones between doubled markers
    and italic ones between single markers, format these lines, and the
    same document comes out.  This holds for every response in which no
    line is a lone marker and no line has a carriage return inside, the
    sample of the specification among them. *)
Theorem format_render_idempotent (raw : str) (doc : list (list Run)) :
  Forall (fun line => strip line ≠ py "*") (split LF raw) ->
  Forall (fun line => CR ∉ strip line) (split LF raw) ->
  format_document raw = inr doc ->
  format_document (render doc) = inr doc.
Proof.
  change (py "*") with [STAR].
  intros Hlone Hcr [Hacc ->]%format_document_inv.
  unfold formatter in *. rewrite render_document_of.
  assert (entries_of_lines
            (split LF (join LF (rendered_lines
                                  (entries_of_lines (split LF raw)))))
          = entries_of_lines (split LF raw)) as Hsame.
  { destruct (entries_of_lines (split LF raw)) as [|e es] eqn:Hes; [done|].
    rewrite <- Hes, split_join.
    - apply reread_lines. apply Forall_and. by split.
    - by rewrite Hes.
    - apply rendered_lines_lf. apply Forall_and. split; [|done].
      apply split_fields. }
  unfold format_document. rewrite format_lines_ok; by rewrite Hsame.
Qed.

Lemma format_render_idempotent_witness :
  format_document
    (render [ [mkRun (py "Title") (Some true) None];
              [mkRun (py "Some plain text") None None];
              [mkRun (py "Note") None (Some true)] ])
  = inr [ [mkRun (py "Title") (Some true) None];
          [mkRun (py "Some plain text") None None];
          [mkRun (py "Note") None (Some true)] ].
Proof.
  apply (format_render_idempotent sample_response).
  - vm_compute. repeat constructor; discriminate.
  - vm_compute. repeat constructor; intros H;
      repeat (apply elem_of_cons in H as [H | H]; [discriminate H|]);
      by apply not_elem_of_nil in H.
  - vm_compute. reflexivity.
Defined.

(** The side conditions of C5 are needed.  A lone marker is an italic
    paragraph with no text, and its rendering reads as a bold one; a
    carriage return inside a line is a line break in the run, and the
    rendering of the run reads as two lines. *)
Example lone_marker_changes :
  format_document (py "*") = inr [[mkRun [] None (Some true)]]
  /\ format_document (render [[mkRun [] None (Some true)]])
     = inr [[mkRun [] (Some true) None]].
Proof. split; vm_compute; reflexivity. Qed.

Example inner_return_changes :
  format_document (py "a" ++ CR :: py "b")
  = inr [[mkRun (py "a" ++ LF :: py "b") None None]]
  /\ format_document (render [[mkRun (py "a" ++ LF :: py "b") None None]])
     = inr [[mkRun (py "a") None None]; [mkRun (py "b") None None]].
Proof. split; vm_compute; reflexivity. Qed.

(** ** The pipeline *)

Section PipelineProperties.

Context {Image PilImage Response Exn : Type}.
Variable E : Env Image PilImage Response Exn.

Implicit Types (w : World PilImage) (img : option Image).

(** C6. Without an image the function returns no file, the message
    that no image was uploaded and an empty preview; nothing is sent
    and nothing is written. *)
Theorem null_image_fails_fast w :
  process_document E None w
  = ((None, py "Error: No image uploaded.", []), w).
Proof. reflexivity. Qed.

(** C2, as the code has it.  With the credential missing, an uploaded
    image gets no file, the message about the credential and an empty
    preview, and nothing is sent or written.  Without an image the
    check for the image comes first and its message is returned. *)
Theorem missing_credential_fails_fast img w :
  key_missing E = true ->
  process_document E img w
  = ((None,
      match img with
      | Some _ =>
          py "Error: API Key missing in Space Secrets (GEMINI_API_KEY)."
      | None => py "Error: No image uploaded."
      end,
      []), w).
Proof.
  intros Hkey. unfold process_document. rewrite Hkey. by destruct img.
Qed.

(** C4. A request that fails for want of an image or of the credential,
    through an exception in the conversion or the call, or on an empty
    response, returns no file and leaves every file as it was. *)
Theorem early_failure_keeps_files img w :
  img = None
  \/ key_missing E = true
  \/ (exists i, img = Some i
        /\ ((extract_text E i w).1 = inr None
            \/ exists e, (extract_text E i w).1 = inl e)) ->
  file_of (process_document E img w).1 = None
  /\ files (process_document E img w).2 = files w.
Proof.
  intros [-> | [Hkey | (i & -> & H)]]; [done | |].
  - unfold process_document. rewrite Hkey. by destruct img.
  - unfold process_document, try_body, bind.
    destruct (key_missing E); [done|].
    assert (files (extract_text E i w).2 = files w) as Hfiles.
    { unfold extract_text, generate_content, bind, lift, ret.
      simpl. by repeat (case_match; simplify_eq; simpl). }
    destruct (extract_text E i w) as [[e|[t|]] w'] eqn:Hx; simpl in *.
    + done.
    + destruct H as [H | [e H]]; discriminate H.
    + done.
Qed.

(** C9. When a request succeeds, the preview is the text of the model's
    response as it came, markers included, while the document that is
    saved holds the formatted text, which has no marker left. *)
Theorem preview_is_raw_response img w p :
  file_of (process_document E img w).1 = Some p ->
  exists i pil r t doc,
    img = Some i
    /\ fromarray E i = inr pil
    /\ remote E (request_for pil) = inr (Some r)
    /\ response_text E r = inr t
    /\ preview_of (process_document E img w).1 = t
    /\ format_document t = inr doc
    /\ files (process_document E img w).2 !! output_path
       = Some (DocxFile doc)
    /\ Forall (Forall (fun run => STAR ∉ text run)) doc.
Proof.
  intros H. apply success_inv in H
    as (i & pil & r & t & doc & -> & _ & Hconv & Hcall & Htext & _
        & Hdoc & _ & ->).
  exists i, pil, r, t, doc. repeat split; try done.
  - simpl. apply lookup_insert_eq.
  - by apply (format_document_no_marker t).
Qed.

(** C10. A request that returns no file returns a message that is not
    empty, one of the four the function has, and an empty preview. *)
Theorem failure_triple img w :
  file_of (process_document E img w).1 = None ->
  exists msg,
    (process_document E img w).1 = (None, msg, [])
    /\ msg ≠ []
    /\ (msg = py "Error: No image uploaded."
        \/ msg = py "Error: API Key missing in Space Secrets (GEMINI_API_KEY)."
        \/ msg = py "Error: Model returned an empty response."
        \/ exists e, msg = 10060 :: py " System Error: " ++ exn_str E e).
Proof.
  intros H. run_pipeline;
    eexists; (split; [reflexivity|]); (split; [done|]); eauto 6.
Qed.

End PipelineProperties.

(** C2, as the specification has it, fails when no image is given: the
    message is then the one about the image, although the credential is
    missing too. *)
Lemma missing_credential_null_image :
  key_missing (scripted_env None None []) = true
  /\ (process_document (scripted_env None None []) None empty_world).1
     = (None, py "Error: No image uploaded.", [])
  /\ py "Error: No image uploaded."
     ≠ py "Error: API Key missing in Space Secrets (GEMINI_API_KEY).".
Proof. repeat split. vm_compute. discriminate. Qed.

Lemma missing_credential_fails_fast_witness :
  process_document (scripted_env None None (py "text")) (Some 0%nat) empty_world
  = ((None, py "Error: API Key missing in Space Secrets (GEMINI_API_KEY).",
      []), empty_world).
Proof.
  apply (missing_credential_fails_fast
           (scripted_env None None (py "text")) (Some 0%nat) empty_world).
  reflexivity.
Defined.

Lemma early_failure_keeps_files_witness :
  file_of (process_document
             (scripted_env (Some (py "key")) (Some (py "timed out")) [])
             (Some 0%nat) used_world).1 = None
  /\ files (process_document
              (scripted_env (Some (py "key")) (Some (py "timed out")) [])
              (Some 0%nat) used_world).2
     = files used_world.
Proof.
  apply (early_failure_keeps_files
           (scripted_env (Some (py "key")) (Some (py "timed out")) [])
           (Some 0%nat) used_world).
  right. right. exists 0%nat. split; [reflexivity|].
  right. exists (py "timed out"). reflexivity.
Defined.

Lemma preview_is_raw_response_witness :
  exists i pil r t doc,
    Some 0%nat = Some i
    /\ fromarray (scripted_env (Some (py "key")) None sample_response) i
       = inr pil
    /\ remote (scripted_env (Some (py "key")) None sample_response)
         (request_for pil) = inr (Some r)
    /\ response_text (scripted_env (Some (py "key")) None sample_response) r
       = inr t
    /\ preview_of
         (process_document
            (scripted_env (Some (py "key")) None sample_response)
            (Some 0%nat) empty_world).1 = t
    /\ format_document t = inr doc
    /\ files
         (process_document
            (scripted_env (Some (py "key")) None sample_response)
            (Some 0%nat) empty_world).2 !! output_path
       = Some (DocxFile doc)
    /\ Forall (Forall (fun run => STAR ∉ text run)) doc.
Proof.
  apply (preview_is_raw_response
           (scripted_env (Some (py "key")) None sample_response)
           (Some 0%nat) empty_world output_path).
  reflexivity.
Defined.

Lemma failure_triple_witness :
  exists msg,
    (process_document (scripted_env (Some (py "key")) None [])
       (Some 0%nat) empty_world).1 = (None, msg, [])
    /\ msg ≠ []
    /\ (msg = py "Error: No image uploaded."
        \/ msg = py "Error: API Key missing in Space Secrets (GEMINI_API_KEY)."
        \/ msg = py "Error: Model returned an empty response."
        \/ exists e,
             msg = 10060 :: py " System Error: "
                   ++ exn_str (scripted_env (Some (py "key")) None []) e).
Proof.
  apply (failure_triple (scripted_env (Some (py "key")) None [])
           (Some 0%nat) empty_world).
  reflexivity.
Defined.


(* ===================================================================== *)
(** * Further properties of the formatter *)
(* ===================================================================== *)

Section MoreStringFacts.

Implicit Types (c sep : char) (s ws : str) (lines : list str).

Lemma split_sep sep s1 s2 :
  split sep (s1 ++ sep :: s2) = split sep s1 ++ split sep s2.
Proof.
  induction s1 as [|c s1 IH]; simpl.
  - by rewrite N.eqb_refl.
  - destruct (c =? sep); [by rewrite IH|].
    rewrite IH. pose proof (split_nonempty sep s1) as Hne.
    by destruct (split sep s1).
Qed.

(** The characters of a field are characters of the string. *)
Lemma split_elem sep s f c : f ∈ split sep s -> c ∈ f -> c ∈ s.
Proof.
  revert f. induction s as [|a s IH]; intros f Hf Hc; simpl in Hf.
  - apply list_elem_of_singleton in Hf as ->. by apply not_elem_of_nil in Hc.
  - destruct (a =? sep).
    + apply elem_of_cons in Hf as [-> | Hf];
        [by apply not_elem_of_nil in Hc | right; eauto].
    + pose proof (split_nonempty sep s) as Hne.
      destruct (split sep s) as [|g gs]; [done|].
      apply elem_of_cons in Hf as [-> | Hf].
      * apply elem_of_cons in Hc as [-> | Hc]; [left|right].
        apply (IH g); [left | done].
      * right. apply (IH f); [by right | done].
Qed.

Lemma lstrip_spaces ws s : spaces ws -> lstrip (ws ++ s) = lstrip s.
Proof. induction 1 as [|c ws Hc _ IH]; simpl; [done | by rewrite Hc]. Qed.

Lemma lstrip_all_spaces ws : spaces ws -> lstrip ws = [].
Proof. intros H. rewrite <- (app_nil_r ws). by rewrite lstrip_spaces. Qed.

Lemma rstrip_all_spaces ws : spaces ws -> rstrip ws = [].
Proof. induction 1 as [|c ws Hc _ IH]; simpl; [done | by rewrite IH, Hc]. Qed.

Lemma rstrip_spaces s ws : spaces ws -> rstrip (s ++ ws) = rstrip s.
Proof.
  intros Hws. induction s as [|c s IH]; simpl.
  - by apply rstrip_all_spaces.
  - by rewrite IH.
Qed.

(** White space around a string does not change what [strip] leaves. *)
Lemma strip_padded ws1 ws2 s :
  spaces ws1 -> spaces ws2 -> strip (ws1 ++ s ++ ws2) = strip s.
Proof.
  intros H1 H2. unfold strip. rewrite lstrip_spaces by done.
  induction s as [|c s IH]; simpl.
  - by rewrite lstrip_all_spaces.
  - destruct (isspace c); [done|].
    by rewrite app_comm_cons, rstrip_spaces.
Qed.

Lemma strip_all_spaces ws : spaces ws -> strip ws = [].
Proof. intros H. unfold strip. by rewrite lstrip_all_spaces. Qed.

Lemma entries_of_blank_lines lines :
  Forall (fun l => strip l = []) lines -> entries_of_lines lines = [].
Proof.
  induction 1 as [|l lines Hl _ IH]; [done|].
  by rewrite entries_of_lines_cons, Hl, IH.
Qed.

Lemma document_of_length (es : list Entry) :
  length (document_of es) = length es.
Proof. apply length_map. Qed.

Lemma entries_of_lines_length lines :
  length (entries_of_lines lines)
  = length (filter (fun l => strip l ≠ []) lines).
Proof.
  induction lines as [|l lines IH]; [done|].
  rewrite entries_of_lines_cons, filter_cons.
  destruct (strip l) eqn:Hl.
  - rewrite decide_False by (intros H; by apply H). exact IH.
  - rewrite decide_True by done. simpl. f_equal. exact IH.
Qed.

(** [lstrip], [rstrip] and [strip] go through a change of characters
    that keeps white space white and the rest not. *)
Lemma strip_map (f : N -> N) s :
  (forall c, isspace (f c) = isspace c) -> strip (map f s) = map f (strip s).
Proof.
  intros Hf. unfold strip.
  assert (forall s, lstrip (map f s) = map f (lstrip s)) as Hl.
  { clear s. induction s as [|c s IH]; [done|]. simpl. rewrite Hf, IH.
    by destruct (isspace c). }
  assert (forall s, rstrip (map f s) = map f (rstrip s)) as Hr.
  { clear s. induction s as [|c s IH]; [done|]. simpl. rewrite IH, Hf.
    destruct (rstrip s); simpl; by destruct (isspace c). }
  by rewrite Hl, Hr.
Qed.

Lemma strip_run_text s : strip (run_text s) = run_text (strip s).
Proof.
  apply strip_map. intros c. by destruct (N.eqb_spec c CR) as [->|].
Qed.

(** Where a paragraph of a formatted text comes from. *)
Lemma format_document_elem (raw : str) (doc : list (list Run))
    (par : list Run) :
  format_document raw = inr doc -> par ∈ doc ->
  exists line,
    line ∈ split LF raw /\ strip line ≠ []
    /\ par = [run_of_entry (displayed_text (strip line), emphasis_of line)].
Proof.
  intros [_ ->]%format_document_inv. unfold formatter.
  generalize (split LF raw). intros lines.
  induction lines as [|l lines IH]; [by intros H%not_elem_of_nil|].
  rewrite entries_of_lines_cons, document_of_app, elem_of_app.
  intros [H | H].
  - destruct (strip l) eqn:Hl; simpl in H; [by apply not_elem_of_nil in H|].
    apply list_elem_of_singleton in H as ->.
    exists l. rewrite Hl. split; [left | done].
  - destruct (IH H) as (line & Hin & Hne & ->).
    exists line. split; [by right | done].
Qed.

End MoreStringFacts.

Section MoreFormatterFacts.

Implicit Types (c sep : char) (s ws raw line : str) (lines : list str).

(** Joining the fields of a split gives the string back. *)
Lemma join_split sep s : join sep (split sep s) = s.
Proof.
  induction s as [|c s IH]; [done|]. simpl.
  pose proof (split_nonempty sep s) as Hne.
  destruct (N.eqb_spec c sep) as [->|Hc].
  - destruct (split sep s) as [|f fs]; [done|]. simpl in *. by rewrite IH.
  - destruct (split sep s) as [|f fs]; [done|].
    rewrite <- IH. by destruct fs.
Qed.

Lemma join_spaces lines :
  Forall spaces lines -> spaces (join LF lines).
Proof.
  induction 1 as [|l lines Hl Hls IH]; [constructor|].
  destruct lines as [|l' lines]; [done|].
  change (join LF (l :: l' :: lines)) with (l ++ LF :: join LF (l' :: lines)).
  apply Forall_app. split; [done|]. by constructor.
Qed.

Lemma strip_empty_spaces s : strip s = [] -> spaces s.
Proof.
  unfold strip. intros H.
  destruct (lstrip_cut s) as (ws1 & Hs & H1).
  destruct (rstrip_cut (lstrip s)) as (ws2 & Hl & H2).
  rewrite H in Hl. rewrite Hs, Hl. by apply Forall_app.
Qed.

Lemma split_spaces raw : spaces raw -> Forall spaces (split LF raw).
Proof.
  intros H. apply Forall_forall. intros f Hf.
  apply Forall_forall. intros c Hc.
  unfold spaces in H. rewrite Forall_forall in H.
  apply H. by apply (split_elem LF raw f).
Qed.

Lemma entries_of_lines_nil_inv lines :
  entries_of_lines lines = [] -> Forall (fun l => strip l = []) lines.
Proof.
  induction lines as [|l lines IH]; [constructor|].
  rewrite entries_of_lines_cons. intros H.
  apply app_eq_nil in H as [Hl Hls].
  constructor; [|by apply IH]. by destruct (strip l).
Qed.

Lemma plain_lines_document lines :
  Forall (fun l => STAR ∉ l) lines ->
  document_of (entries_of_lines lines)
  = map (fun l => [mkRun (run_text l) None None])
        (filter (fun l => l ≠ []) (map strip lines)).
Proof.
  induction 1 as [|l lines Hl _ IH]; [done|].
  rewrite entries_of_lines_cons, document_of_app, IH.
  change (map strip (l :: lines)) with (strip l :: map strip lines).
  rewrite filter_cons.
  assert (emphasis_of l = NoEmphasis) as He.
  { unfold emphasis_of. change (py "**") with [STAR; STAR].
    change (py "*") with [STAR].
    assert (contains [STAR] l = false) as H1.
    { apply not_true_iff_false. by rewrite contains_single. }
    assert (contains [STAR; STAR] l = false) as H2.
    { apply not_true_iff_false. intros H.
      apply contains_spec in H as (pre & post & ->).
      apply Hl. rewrite elem_of_app. right. left. }
    by rewrite H1, H2. }
  destruct (strip l) as [|c s] eqn:Hstrip.
  - by rewrite decide_False by (intros H; by apply H).
  - rewrite decide_True by done. simpl. rewrite He.
    unfold run_of_entry. simpl. rewrite filter_star_free; [done|].
    apply Forall_forall. intros x Hx ->. apply Hl.
    apply strip_elem. by rewrite Hstrip.
Qed.

End MoreFormatterFacts.

Lemma format_document_blank (raw : str) :
  spaces raw -> format_document raw = inr [].
Proof.
  intros H. unfold format_document. rewrite format_lines_ok.
  - rewrite entries_of_blank_lines; [done|].
    eapply Forall_impl; [by apply split_spaces|]. apply strip_all_spaces.
  - rewrite entries_of_blank_lines; [done|].
    eapply Forall_impl; [by apply split_spaces|]. apply strip_all_spaces.
Qed.

(** X1. Formatting goes line by line: the document of two texts put
    together with a line break between them is the document of the first
    followed by the document of the second, and the loop raises on the
    whole where it raises on one of the parts. *)
Theorem format_document_concat (raw1 raw2 : str) :
  format_document (raw1 ++ LF :: raw2)
  = followed_by (format_document raw1) (format_document raw2).
Proof.
  unfold format_document. by rewrite split_sep, format_lines_app.
Qed.

(** X2. The loop ends with a document without any paragraph exactly when
    the text is made of white space only (the empty text included). *)
Theorem empty_document_iff_blank (raw : str) :
  format_document raw = inr [] <-> spaces raw.
Proof.
  split.
  - intros [_ H]%format_document_inv. symmetry in H.
    apply fmap_nil_inv in H. apply entries_of_lines_nil_inv in H.
    rewrite <- (join_split LF raw). apply join_spaces.
    eapply Forall_impl; [exact H|]. apply strip_empty_spaces.
  - apply format_document_blank.
Qed.

(** X3. White space before and after a line, a carriage return at its end
    for one, changes nothing in what the loop does with the line. *)
Theorem padding_is_ignored (doc : list (list Run)) (ws1 ws2 line : str) :
  spaces ws1 -> spaces ws2 ->
  format_line doc (ws1 ++ line ++ ws2) = format_line doc line.
Proof.
  intros H1 H2. rewrite !format_line_spec.
  rewrite <- (emphasis_of_strip (ws1 ++ line ++ ws2)).
  rewrite strip_padded by done. by rewrite emphasis_of_strip.
Qed.

Lemma padding_is_ignored_witness :
  format_line [] (py "  " ++ py "**a**" ++ [13]) = format_line [] (py "**a**").
Proof.
  apply (padding_is_ignored [] (py "  ") [13] (py "**a**")).
  - vm_compute. repeat constructor.
  - vm_compute. repeat constructor.
Defined.

(** X4. When the loop gets to its end, the document has one paragraph
    for each line of the text that is not blank. *)
Theorem paragraph_count (raw : str) (doc : list (list Run)) :
  format_document raw = inr doc ->
  length doc = length (filter (fun line => strip line ≠ []) (split LF raw)).
Proof.
  intros [_ ->]%format_document_inv. unfold formatter.
  by rewrite document_of_length, entries_of_lines_length.
Qed.

Lemma paragraph_count_witness :
  length [ [mkRun (py "Title") (Some true) None];
           [mkRun (py "Some plain text") None None];
           [mkRun (py "Note") None (Some true)] ]
  = length (filter (fun line => strip line ≠ [])
                   (split LF sample_response)).
Proof.
  apply (paragraph_count sample_response). vm_compute. reflexivity.
Defined.

(** X5. Every paragraph of a document the loop has built has exactly one
    run. *)
Theorem one_run_per_paragraph (raw : str) (doc : list (list Run)) :
  format_document raw = inr doc ->
  Forall (fun par => length par = 1%nat) doc.
Proof.
  intros Hdoc. apply Forall_forall. intros par Hpar.
  by apply (format_document_elem raw) in Hpar as (line & _ & _ & ->).
Qed.

Lemma one_run_per_paragraph_witness :
  Forall (fun par => length par = 1%nat)
         [ [mkRun (py "Title") (Some true) None];
           [mkRun (py "Some plain text") None None];
           [mkRun (py "Note") None (Some true)] ].
Proof.
  apply (one_run_per_paragraph sample_response). vm_compute. reflexivity.
Defined.

(** X6. A run reads a line break only where its line had a carriage
    return inside: for a text without carriage returns, no run of the
    document has a line break in its text. *)
Theorem paragraph_text_has_no_line_break (raw : str) (doc : list (list Run)) :
  CR ∉ raw ->
  format_document raw = inr doc ->
  Forall (Forall (fun run => LF ∉ text run)) doc.
Proof.
  intros Hcr Hdoc. apply Forall_forall. intros par Hpar.
  apply (format_document_elem raw) in Hpar as (line & Hline & _ & ->);
    [|done].
  repeat constructor. simpl. rewrite run_text_id.
  - intros H. apply displayed_text_elem, strip_elem in H.
    pose proof (split_fields LF raw) as Hf. rewrite Forall_forall in Hf.
    by apply (Hf line).
  - intros H. apply displayed_text_elem, strip_elem in H.
    apply Hcr. by apply (split_elem LF raw line).
Qed.

Lemma paragraph_text_has_no_line_break_witness :
  Forall (Forall (fun run => LF ∉ text run))
         [ [mkRun (py "a") None None]; [mkRun (py "b") None None] ].
Proof.
  apply (paragraph_text_has_no_line_break (py "a" ++ LF :: py "b")).
  - vm_compute. intros H.
    repeat (apply elem_of_cons in H as [H | H]; [discriminate H|]).
    by apply not_elem_of_nil in H.
  - vm_compute. reflexivity.
Defined.

(** X7. A run without emphasis is a trimmed line as it stands: its text
    is not empty and has no white space at either end. *)
Theorem plain_run_is_trimmed (raw : str) (doc : list (list Run)) :
  format_document raw = inr doc ->
  Forall (Forall (fun run =>
            bold run = None -> italic run = None ->
            text run ≠ [] /\ strip (text run) = text run))
         doc.
Proof.
  intros Hdoc. apply Forall_forall. intros par Hpar.
  apply (format_document_elem raw) in Hpar as (line & _ & Hne & ->);
    [|done].
  rewrite <- (emphasis_of_strip line). unfold emphasis_of.
  change (py "**") with [STAR; STAR]. change (py "*") with [STAR].
  destruct (contains [STAR; STAR] (strip line));
    [by repeat constructor|].
  destruct (contains [STAR] (strip line)) eqn:Hstar;
    [by repeat constructor|].
  apply contains_single_false in Hstar.
  repeat constructor; simpl; rewrite filter_star_free by done.
  - by destruct (strip line).
  - by rewrite strip_run_text, strip_idemp.
Qed.

Lemma plain_run_is_trimmed_witness :
  Forall (Forall (fun run =>
            bold run = None -> italic run = None ->
            text run ≠ [] /\ strip (text run) = text run))
         [ [mkRun (py "Title") (Some true) None];
           [mkRun (py "Some plain text") None None];
           [mkRun (py "Note") None (Some true)] ].
Proof.
  apply (plain_run_is_trimmed sample_response). vm_compute. reflexivity.
Defined.

(** X8. When the loop gets to its end on a text without any marker, the
    document has plain paragraphs only, one for each line that is not
    blank, and the run reads the trimmed line (a carriage return in it as
    a line break). *)
Theorem text_without_markers (raw : str) (doc : list (list Run)) :
  STAR ∉ raw ->
  format_document raw = inr doc ->
  doc = map (fun line => [mkRun (run_text line) None None])
            (filter (fun line => line ≠ []) (map strip (split LF raw))).
Proof.
  intros Hraw [_ ->]%format_document_inv. unfold formatter.
  apply plain_lines_document. apply Forall_forall. intros l Hl Hstar.
  apply Hraw. by apply (split_elem LF raw l).
Qed.

Lemma text_without_markers_witness :
  [ [mkRun (py "a") None None]; [mkRun (py "b") None None] ]
  = map (fun line => [mkRun (run_text line) None None])
        (filter (fun line => line ≠ [])
                (map strip (split LF (py "a" ++ LF :: py " b ")))).
Proof.
  apply (text_without_markers (py "a" ++ LF :: py " b ")).
  - vm_compute. intros H.
    repeat (apply elem_of_cons in H as [H | H]; [discriminate H|]).
    by apply not_elem_of_nil in H.
  - vm_compute. reflexivity.
Defined.

(** X9. In [clean_line.replace('**', '').replace('*', '')] the first call
    changes nothing in the result: the text written is the trimmed line
    with every marker taken out, which the second call alone gives. *)
Theorem first_replace_is_redundant (clean_line : str) :
  replace (py "*") [] (replace (py "**") [] clean_line)
  = replace (py "*") [] clean_line
  /\ replace (py "*") [] clean_line = filter (fun c => c ≠ STAR) clean_line.
Proof.
  change (py "**") with [STAR; STAR]. change (py "*") with [STAR].
  by rewrite replace_markers, replace_single.
Qed.

(** X22. The loop gets to its end exactly when [add_run] takes the text
    of every entry of the specification's formatter, that is, when no
    kept line, trimmed and without its markers, has a character that XML
    does not allow. *)
Theorem document_built_iff_accepted (raw : str) :
  (exists doc, format_document raw = inr doc)
  <-> forallb (fun e => accepts (fst e)) (formatter raw) = true.
Proof.
  split.
  - intros [doc [H _]%format_document_inv].
    apply Is_true_true, forallb_True.
    eapply Forall_impl; [exact H|]. intros e He. by apply Is_true_true.
  - intros H. exists (document_of (formatter raw)).
    unfold format_document, formatter. apply format_lines_ok.
    apply Is_true_true, forallb_True in H.
    eapply Forall_impl; [exact H|]. intros e He. by apply Is_true_true.
Qed.

(* ===================================================================== *)
(** * Further properties of the pipeline *)
(* ===================================================================== *)

Lemma truthy_nonempty (s : str) : s ≠ [] -> truthy s = true.
Proof. by destruct s. Qed.

Section MorePipelineProperties.

Context {Image PilImage Response Exn : Type}.
Variable E : Env Image PilImage Response Exn.

Implicit Types (w : World PilImage) (img : option Image) (i : Image).

(** Run the pipeline along the steps the hypotheses fix. *)
Ltac step_pipeline :=
  unfold process_document, try_body, assemble, extract_text, save,
    generate_content, bind, lift, ret, request_for in *;
  simpl in *;
  repeat match goal with
         | H : ?x = _ |- context [?x] => rewrite H; simpl
         end.

(** X10. When the key is there, the image converts, the service answers
    with a text that is not empty, the loop builds a document from it
    and the save goes through, the request returns the fixed path, the
    success message and the text as it came; one request has gone out,
    and the file at the path now holds the document. *)
Theorem request_succeeds i w pil r t doc :
  key_missing E = false ->
  fromarray E i = inr pil ->
  remote E (request_for pil) = inr (Some r) ->
  response_text E r = inr t ->
  t ≠ [] ->
  format_document t = inr doc ->
  save_fault E doc output_path = None ->
  process_document E (Some i) w
  = ((Some output_path, SUCCESS, t),
     mkWorld (<[output_path := DocxFile doc]> (files w))
             (calls w ++ [request_for pil])).
Proof.
  intros Hkey Hconv Hcall Htext Ht%truthy_nonempty Hdoc Hsave.
  by step_pipeline.
Qed.

(** X11. Whatever happens, the status returned is not empty. *)
Theorem status_is_never_empty img w :
  status_of (process_document E img w).1 ≠ [].
Proof. by run_pipeline. Qed.

(** X12. The three outputs go together: a file is returned exactly when
    the preview is not empty, and exactly when the status is the success
    message. *)
Theorem outputs_agree img w :
  (file_of (process_document E img w).1 ≠ None
   <-> preview_of (process_document E img w).1 ≠ [])
  /\ (file_of (process_document E img w).1 ≠ None
      <-> status_of (process_document E img w).1 = SUCCESS).
Proof.
  run_pipeline; split; split; try done;
    match goal with H : negb (truthy ?t) = false |- _ => by destruct t end.
Qed.

(** X13. A request sends at most one call to the service, never a second
    try, and what it sends is the fixed model name and prompt with the
    converted image. *)
Theorem at_most_one_request img w :
  calls (process_document E img w).2 = calls w
  \/ exists i pil,
       img = Some i /\ fromarray E i = inr pil
       /\ calls (process_document E img w).2
          = calls w ++ [mkRequest (py "gemini-3-flash-preview")
                                  [PText prompt; PImage pil]].
Proof.
  run_pipeline; (by left) || (right; eexists _, _; by repeat split).
Qed.

(** X14. No file other than the output file is ever touched. *)
Theorem only_output_file_changes img w (path : list N) :
  path ≠ py "Converted_Document.docx" ->
  files (process_document E img w).2 !! path = files w !! path.
Proof.
  intros Hpath. run_pipeline; by rewrite ?lookup_insert_ne.
Qed.

(** X15. When the image cannot be converted, the exception is reported in
    the status and nothing is sent or written. *)
Theorem conversion_error_sends_nothing i w e :
  key_missing E = false ->
  fromarray E i = inl e ->
  process_document E (Some i) w
  = ((None, 10060 :: py " System Error: " ++ exn_str E e, []), w).
Proof. intros Hkey Hconv. by step_pipeline. Qed.

(** X16. When the call raises, or reading the text of the response does,
    the exception is reported in the status; the request has gone out and
    no file has changed. *)
Theorem call_error_is_reported i w pil e :
  key_missing E = false ->
  fromarray E i = inr pil ->
  remote E (request_for pil) = inl e
  \/ (exists r, remote E (request_for pil) = inr (Some r)
                /\ response_text E r = inl e) ->
  process_document E (Some i) w
  = ((None, 10060 :: py " System Error: " ++ exn_str E e, []),
     mkWorld (files w) (calls w ++ [request_for pil])).
Proof.
  intros Hkey Hconv [Hcall | (r & Hcall & Htext)]; by step_pipeline.
Qed.

(** X17. When the service returns no response object, or one whose text
    is empty, the status is the empty-response message; the request has
    gone out and no file has changed. *)
Theorem empty_response_is_reported i w pil :
  key_missing E = false ->
  fromarray E i = inr pil ->
  remote E (request_for pil) = inr None
  \/ (exists r, remote E (request_for pil) = inr (Some r)
                /\ response_text E r = inr []) ->
  process_document E (Some i) w
  = ((None, py "Error: Model returned an empty response.", []),
     mkWorld (files w) (calls w ++ [request_for pil])).
Proof.
  intros Hkey Hconv [Hcall | (r & Hcall & Htext)]; by step_pipeline.
Qed.

(** X18. A response of white space only is not an empty response: the
    request succeeds, and the document saved has no paragraph. *)
Theorem blank_response_saves_empty_document i w pil r t :
  key_missing E = false ->
  fromarray E i = inr pil ->
  remote E (request_for pil) = inr (Some r) ->
  response_text E r = inr t ->
  t ≠ [] -> spaces t ->
  save_fault E [] output_path = None ->
  (process_document E (Some i) w).1 = (Some output_path, SUCCESS, t)
  /\ files (process_document E (Some i) w).2 !! output_path
     = Some (DocxFile []).
Proof.
  intros Hkey Hconv Hcall Htext Ht%truthy_nonempty Hblank Hsave.
  apply format_document_blank in Hblank.
  step_pipeline. split; [done | apply lookup_insert_eq].
Qed.

(** X19. When the save raises, the text that was extracted is lost to
    the caller: the result is the failure triple with the exception in
    the status and an empty preview, although the request has gone out. *)
Theorem save_error_is_reported i w pil r t doc e opened :
  key_missing E = false ->
  fromarray E i = inr pil ->
  remote E (request_for pil) = inr (Some r) ->
  response_text E r = inr t ->
  t ≠ [] ->
  format_document t = inr doc ->
  save_fault E doc output_path = Some (e, opened) ->
  (process_document E (Some i) w).1
  = (None, 10060 :: py " System Error: " ++ exn_str E e, [])
  /\ calls (process_document E (Some i) w).2
     = calls w ++ [request_for pil].
Proof.
  intros Hkey Hconv Hcall Htext Ht%truthy_nonempty Hdoc Hsave.
  by step_pipeline.
Qed.

(** X21. When [add_run] raises on a line of the response, the exception
    is reported in the status and the preview is empty; the request has
    gone out, nothing is saved and no file has changed. *)
Theorem assembly_error_is_reported i w pil r t bad :
  key_missing E = false ->
  fromarray E i = inr pil ->
  remote E (request_for pil) = inr (Some r) ->
  response_text E r = inr t ->
  t ≠ [] ->
  format_document t = inl bad ->
  process_document E (Some i) w
  = ((None,
      10060 :: py " System Error: " ++ exn_str E (add_run_error E bad), []),
     mkWorld (files w) (calls w ++ [request_for pil])).
Proof.
  intros Hkey Hconv Hcall Htext Ht%truthy_nonempty Hdoc.
  by step_pipeline.
Qed.

(** X20. The import and the key check go by the same test.  If the
    variable is unset or empty, the client library is not configured, one
    warning is printed and every request is stopped at the key check;
    otherwise the library is configured with the key, nothing is printed
    and requests get past the check. *)
Theorem startup_matches_key_check (environ : gmap (list N) (list N)) :
  api_key E = boot_api_key (import_module environ) ->
  (key_missing E = true
   /\ configured (import_module environ) = None
   /\ printed (import_module environ) = [KEY_WARNING])
  \/ (key_missing E = false
      /\ printed (import_module environ) = []
      /\ exists k, environ !! KEY_NAME = Some k /\ k ≠ []
                   /\ configured (import_module environ) = Some k).
Proof.
  unfold key_missing, import_module. intros ->.
  destruct (environ !! KEY_NAME) as [[|c k]|]; cbn.
  - by left.
  - right. repeat split. by exists (c :: k).
  - by left.
Qed.

End MorePipelineProperties.

Lemma request_succeeds_witness :
  process_document
    (staged_env (Some (py "key")) None None None (Some sample_response))
    (Some 0%nat) used_world
  = ((Some output_path, SUCCESS, sample_response),
     mkWorld (<[output_path :=
                  DocxFile [ [mkRun (py "Title") (Some true) None];
                             [mkRun (py "Some plain text") None None];
                             [mkRun (py "Note") None (Some true)] ]]>
                (files used_world))
             (calls used_world ++ [request_for 0%nat])).
Proof.
  apply (request_succeeds
           (staged_env (Some (py "key")) None None None (Some sample_response))
           0%nat used_world 0%nat sample_response sample_response);
    try reflexivity.
  vm_compute. discriminate.
Defined.

Lemma only_output_file_changes_witness :
  files (process_document
           (staged_env (Some (py "key")) None None None (Some sample_response))
           (Some 0%nat) used_world).2 !! py "notes.txt"
  = files used_world !! py "notes.txt".
Proof.
  apply (only_output_file_changes
           (staged_env (Some (py "key")) None None None (Some sample_response))
           (Some 0%nat) used_world (py "notes.txt")).
  vm_compute. discriminate.
Defined.

Lemma conversion_error_sends_nothing_witness :
  process_document
    (staged_env (Some (py "key")) (Some (py "bad array")) None None None)
    (Some 0%nat) used_world
  = ((None, 10060 :: py " System Error: " ++ py "bad array", []), used_world).
Proof.
  apply (conversion_error_sends_nothing
           (staged_env (Some (py "key")) (Some (py "bad array")) None None None)
           0%nat used_world (py "bad array"));
    reflexivity.
Defined.

Lemma call_error_is_reported_witness :
  process_document
    (staged_env (Some (py "key")) None (Some (py "timed out")) None None)
    (Some 0%nat) used_world
  = ((None, 10060 :: py " System Error: " ++ py "timed out", []),
     mkWorld (files used_world) (calls used_world ++ [request_for 0%nat])).
Proof.
  apply (call_error_is_reported
           (staged_env (Some (py "key")) None (Some (py "timed out")) None None)
           0%nat used_world 0%nat (py "timed out"));
    [reflexivity | reflexivity | left; reflexivity].
Defined.

Lemma empty_response_is_reported_witness :
  process_document
    (staged_env (Some (py "key")) None None None None)
    (Some 0%nat) used_world
  = ((None, py "Error: Model returned an empty response.", []),
     mkWorld (files used_world) (calls used_world ++ [request_for 0%nat])).
Proof.
  apply (empty_response_is_reported
           (staged_env (Some (py "key")) None None None None)
           0%nat used_world 0%nat);
    [reflexivity | reflexivity | left; reflexivity].
Defined.

Lemma blank_response_saves_empty_document_witness :
  (process_document
     (staged_env (Some (py "key")) None None None (Some (py "  ")))
     (Some 0%nat) used_world).1
  = (Some output_path, SUCCESS, py "  ")
  /\ files (process_document
              (staged_env (Some (py "key")) None None None (Some (py "  ")))
              (Some 0%nat) used_world).2 !! output_path
     = Some (DocxFile []).
Proof.
  apply (blank_response_saves_empty_document
           (staged_env (Some (py "key")) None None None (Some (py "  ")))
           0%nat used_world 0%nat (py "  ") (py "  "));
    try reflexivity.
  - vm_compute. discriminate.
  - vm_compute. repeat constructor.
Defined.

Lemma save_error_is_reported_witness :
  (process_document
     (staged_env (Some (py "key")) None None (Some (py "disk full"))
                 (Some sample_response))
     (Some 0%nat) used_world).1
  = (None, 10060 :: py " System Error: " ++ py "disk full", [])
  /\ calls (process_document
              (staged_env (Some (py "key")) None None (Some (py "disk full"))
                          (Some sample_response))
              (Some 0%nat) used_world).2
     = calls used_world ++ [request_for 0%nat].
Proof.
  apply (save_error_is_reported
           (staged_env (Some (py "key")) None None (Some (py "disk full"))
                       (Some sample_response))
           0%nat used_world 0%nat sample_response sample_response
           [ [mkRun (py "Title") (Some true) None];
             [mkRun (py "Some plain text") None None];
             [mkRun (py "Note") None (Some true)] ]
           (py "disk full") true);
    try reflexivity.
  vm_compute. discriminate.
Defined.

Lemma assembly_error_is_reported_witness :
  process_document
    (staged_env (Some (py "key")) None None None
                (Some (py "a" ++ 0 :: py "b")))
    (Some 0%nat) used_world
  = ((None, 10060 :: py " System Error: " ++ XML_MESSAGE, []),
     mkWorld (files used_world) (calls used_world ++ [request_for 0%nat])).
Proof.
  apply (assembly_error_is_reported
           (staged_env (Some (py "key")) None None None
                       (Some (py "a" ++ 0 :: py "b")))
           0%nat used_world 0%nat
           (py "a" ++ 0 :: py "b") (py "a" ++ 0 :: py "b")
           (py "a" ++ 0 :: py "b"));
    try reflexivity.
  vm_compute. discriminate.
Defined.

Lemma startup_matches_key_check_witness :
  (key_missing (staged_env None None None None None) = true
   /\ configured (import_module ∅) = None
   /\ printed (import_module ∅) = [KEY_WARNING])
  \/ (key_missing (staged_env None None None None None) = false
      /\ printed (import_module ∅) = []
      /\ exists k, (∅ : gmap (list N) (list N)) !! KEY_NAME = Some k /\ k ≠ []
                   /\ configured (import_module ∅) = Some k).
Proof.
  apply (startup_matches_key_check (staged_env None None None None None) ∅).
  reflexivity.
Defined.
